(** * Narrative AI service (apps/narrative-ai/main.py)

    A shallow embedding of the four FastAPI route handlers of the
    narrative service, and the properties of its specification settled
    against them.

    The handlers are coroutines without a suspension point, so each one
    runs as a single atomic step of the server.  They are embedded as
    computations over the story storage in a state-and-failure monad;
    the embedding makes visible that no handler reads the storage,
    writes it, or raises. *)

From Stdlib Require Import ZArith Ascii String List.
From stdpp Require Import gmap strings list fin_maps.

Local Open Scope string_scope.

Set Warnings "-register-all".

(** ** Values of Python dictionaries

    [Dict] in the source is [typing.Dict] with no parameters: string
    keys (the bodies are JSON objects) and arbitrary JSON values. *)

Inductive JValue : Type :=
  | JNull
  | JBool (b : bool)
  | JInt (n : Z)
  | JStr (s : string)
  | JList (l : list JValue)
  | JDict (m : gmap string JValue).

Abbreviation Dict := (gmap string JValue).

(** A dictionary display [{k1: v1, ..., kn: vn}]: the entries are
    stored from left to right, a later key replacing an earlier one. *)
Definition dict_literal (kvs : list (string * JValue)) : Dict :=
  foldl (fun d kv => <[kv.1 := kv.2]> d) ∅ kvs.

(** ** Pydantic models *)

Module GenerateSceneRequest.
Record t : Type := Build
  { story_id : string;
    user_context : Dict;
    previous_choice : option string }.
End GenerateSceneRequest.

Module GenerateChoicesRequest.
Record t : Type := Build
  { story_id : string;
    current_scene : string;
    user_context : Dict }.
End GenerateChoicesRequest.

Module NarrativeResponse.
Record t : Type := Build
  { text : string;
    metadata : Dict }.
End NarrativeResponse.

(** ** Outcomes and the handler monad *)

(** The failure kinds the specification names.  The source imports
    [HTTPException] and raises it nowhere. *)
Inductive Failure : Type :=
  | InvalidInput
  | NotFound
  | GenerationFailure
  | StorageFailure.

Inductive Outcome (A : Type) : Type :=
  | Ok (a : A)
  | Err (e : Failure).
Arguments Ok {A} a.
Arguments Err {A} e.

(** The story storage: story identifier to story state.  The module
    declares no such object; the handlers thread it through so that
    reads and writes, were there any, would show. *)
Abbreviation Storage := (gmap string Dict).

Definition App (A : Type) : Type := Storage -> Outcome A * Storage.

#[global] Instance App_ret : MRet App :=
  fun A (a : A) st => (Ok a, st).

#[global] Instance App_bind : MBind App :=
  fun A B (k : A -> App B) (m : App A) st =>
    match m st with
    | (Ok a, st') => k a st'
    | (Err e, st') => (Err e, st')
    end.

(** [return v] at the end of a handler. *)
Definition ret {A} (a : A) : App A := mret a.

(** ** Route handlers *)

(** [GET /health] *)
Definition health_check : App Dict :=
  ret (dict_literal [("status", JStr "healthy"); ("service", JStr "narrative-ai")]).

(** [POST /api/generate/scene] *)
Definition generate_scene (request : GenerateSceneRequest.t)
  : App NarrativeResponse.t :=
  ret (NarrativeResponse.Build
         "Scene generation endpoint - implementation pending"
         (dict_literal
            [("story_id", JStr (GenerateSceneRequest.story_id request));
             ("model", JStr "gpt-4-turbo-preview");
             ("tokens_used", JInt 0)])).

(** [POST /api/generate/choices] *)
Definition generate_choices (request : GenerateChoicesRequest.t) : App Dict :=
  ret (dict_literal
         [("choices",
           JList
             [JDict (dict_literal [("id", JStr "choice_1");
                                   ("text", JStr "Choice 1 - implementation pending")]);
              JDict (dict_literal [("id", JStr "choice_2");
                                   ("text", JStr "Choice 2 - implementation pending")]);
              JDict (dict_literal [("id", JStr "choice_3");
                                   ("text", JStr "Choice 3 - implementation pending")])]);
          ("metadata",
           JDict (dict_literal
                    [("story_id", JStr (GenerateChoicesRequest.story_id request))]))]).

(** [GET /api/story/{story_id}] *)
Definition get_story_state (story_id : string) : App Dict :=
  ret (dict_literal
         [("story_id", JStr story_id);
          ("state", JDict (dict_literal []));
          ("message", JStr "Story state endpoint - implementation pending")]).

(** ** The application: routing and a run of the server *)

Inductive Request : Type :=
  | GetHealth
  | PostGenerateScene (body : GenerateSceneRequest.t)
  | PostGenerateChoices (body : GenerateChoicesRequest.t)
  | GetStory (story_id : string).

Inductive Response : Type :=
  | Json (d : Dict)
  | Narrative (r : NarrativeResponse.t).

(** The route table of [app]. *)
Definition handle (rq : Request) : App Response :=
  match rq with
  | GetHealth => d ← health_check ; ret (Json d)
  | PostGenerateScene body => r ← generate_scene body ; ret (Narrative r)
  | PostGenerateChoices body => d ← generate_choices body ; ret (Json d)
  | GetStory story_id => d ← get_story_state story_id ; ret (Json d)
  end.

(** Serving a sequence of requests, one after the other.  A failing
    request is answered with its failure and the server goes on. *)
Fixpoint serve (rqs : list Request) (st : Storage)
  : list (Outcome Response) * Storage :=
  match rqs with
  | [] => ([], st)
  | rq :: rqs' =>
      let (o, st') := handle rq st in
      let (os, st'') := serve rqs' st' in
      (o :: os, st'')
  end.

(** ** The path parameter of [/api/story/{story_id}]

    [GetStory] carries the string the route has bound to [story_id].
    The parameter has no convertor of its own, so it is matched as one
    path segment: one or more characters, none of them a slash.  A path
    whose last part is empty or holds a slash matches no route of
    [app]; the router answers it and [get_story_state] is not called. *)

Definition path_parameter (s : string) : bool :=
  negb (String.eqb s "")
  && forallb (fun c => negb (Ascii.eqb c "/"%char)) (list_ascii_of_string s).

(** The request that [GET /api/story/<segment>] is routed to, if any. *)
Definition route_story (segment : string) : option Request :=
  if path_parameter segment then Some (GetStory segment) else None.

(** The storage of a freshly started server. *)
Definition initial_storage : Storage := ∅.

(** ** Independence of the storage *)

(** The outcome of a computation does not depend on the storage. *)
Definition storage_blind {A} (m : App A) : Prop :=
  ∀ st1 st2 : Storage, (m st1).1 = (m st2).1.

(** ** Reading a choices response *)

Definition choice_id (c : JValue) : option string :=
  match c with
  | JDict m => match m !! "id" with Some (JStr s) => Some s | _ => None end
  | _ => None
  end.

Definition choice_text (c : JValue) : option string :=
  match c with
  | JDict m => match m !! "text" with Some (JStr s) => Some s | _ => None end
  | _ => None
  end.

(** The value of the list displayed under ["choices"] in
    [generate_choices]. *)
Definition stub_choices : list JValue :=
  [JDict {[ "id" := JStr "choice_1";
            "text" := JStr "Choice 1 - implementation pending" ]};
   JDict {[ "id" := JStr "choice_2";
            "text" := JStr "Choice 2 - implementation pending" ]};
   JDict {[ "id" := JStr "choice_3";
            "text" := JStr "Choice 3 - implementation pending" ]}].

(** ** Request bodies

    A [POST] route whose parameter is a model receives the JSON object
    of the request body validated against the model's field
    declarations.  What the declarations fix is embedded here: which
    keys are read, which are required, and the default of
    [previous_choice].  How a single value is validated against [str]
    or [Dict] belongs to the validation library and is an interface;
    all that is relied on is that a string is a valid [str] and an
    object a valid [Dict], unchanged. *)

Class Validators : Type :=
  { validate_str : JValue -> option string;
    validate_dict : JValue -> option Dict;
    validate_str_JStr : ∀ s, validate_str (JStr s) = Some s;
    validate_dict_JDict : ∀ d, validate_dict (JDict d) = Some d }.

(** The strictest validators: a string only for [str], an object only
    for [Dict]. *)
Definition strict_str (v : JValue) : option string :=
  match v with JStr s => Some s | _ => None end.

Definition strict_dict (v : JValue) : option Dict :=
  match v with JDict d => Some d | _ => None end.

#[global] Instance strict_validators : Validators :=
  {| validate_str := strict_str;
     validate_dict := strict_dict;
     validate_str_JStr := fun s => eq_refl;
     validate_dict_JDict := fun d => eq_refl |}.

(** A field declared [name: T] with no default: the key must be there. *)
Definition required {A} (validate : JValue -> option A) (body : Dict)
    (name : string) : option A :=
  body !! name ≫= validate.

(** A field declared [name: Optional[str] = None]: the default when the
    key is absent, [None] for [null], a validated [str] otherwise. *)
Definition optional_str `{Validators} (body : Dict) (name : string)
  : option (option string) :=
  match body !! name with
  | None => Some None
  | Some JNull => Some None
  | Some v => Some <$> validate_str v
  end.

(** Validation of a body against [GenerateSceneRequest]; [None] stands
    for a validation error, on which the handler is not called. *)
Definition parse_scene_request `{Validators} (body : Dict)
  : option GenerateSceneRequest.t :=
  story_id ← required validate_str body "story_id" ;
  user_context ← required validate_dict body "user_context" ;
  previous_choice ← optional_str body "previous_choice" ;
  Some (GenerateSceneRequest.Build story_id user_context previous_choice).

(** Validation of a body against [GenerateChoicesRequest]. *)
Definition parse_choices_request `{Validators} (body : Dict)
  : option GenerateChoicesRequest.t :=
  story_id ← required validate_str body "story_id" ;
  current_scene ← required validate_str body "current_scene" ;
  user_context ← required validate_dict body "user_context" ;
  Some (GenerateChoicesRequest.Build story_id current_scene user_context).

(** The JSON object of a model instance, field by field. *)
Definition json_optional_str (o : option string) : JValue :=
  match o with Some s => JStr s | None => JNull end.

Definition scene_request_body (r : GenerateSceneRequest.t) : Dict :=
  dict_literal
    [("story_id", JStr (GenerateSceneRequest.story_id r));
     ("user_context", JDict (GenerateSceneRequest.user_context r));
     ("previous_choice",
      json_optional_str (GenerateSceneRequest.previous_choice r))].

Definition choices_request_body (r : GenerateChoicesRequest.t) : Dict :=
  dict_literal
    [("story_id", JStr (GenerateChoicesRequest.story_id r));
     ("current_scene", JStr (GenerateChoicesRequest.current_scene r));
     ("user_context", JDict (GenerateChoicesRequest.user_context r))].

(** The keys the two request models declare. *)
Definition scene_request_fields : list string :=
  ["story_id"; "user_context"; "previous_choice"].

Definition choices_request_fields : list string :=
  ["story_id"; "current_scene"; "user_context"].

(** [POST /api/generate/scene] from the raw body: validation, then the
    handler; [None] is the validation error answered without calling
    the handler. *)
Definition post_generate_scene `{Validators} (body : Dict)
  : option (App NarrativeResponse.t) :=
  generate_scene <$> parse_scene_request body.

(** [POST /api/generate/choices] from the raw body. *)
Definition post_generate_choices `{Validators} (body : Dict)
  : option (App Dict) :=
  generate_choices <$> parse_choices_request body.

(** ** Concrete requests used in the examples below *)

Definition empty_id_scene_request : GenerateSceneRequest.t :=
  GenerateSceneRequest.Build "" ∅ None.

Definition first_scene_request : GenerateSceneRequest.t :=
  GenerateSceneRequest.Build "story-1"
    (dict_literal [("mood", JStr "curious")]) (Some "choice_1").

Definition first_choices_request : GenerateChoicesRequest.t :=
  GenerateChoicesRequest.Build "story-1" "scene-1" ∅.

(** * Properties *)

(** ** Frame lemmas: the storage is neither written nor read *)

Lemma bind_ret_run {A B} (m : App A) (f : A -> B) (a : A) (st st' : Storage) :
  m st = (Ok a, st') -> (x ← m ; ret (f x)) st = (Ok (f a), st').
Proof. intros Hm. unfold mbind, App_bind. now rewrite Hm. Qed.

(** Every route answers successfully and hands the storage back as it
    received it. *)
Lemma handle_total (rq : Request) (st : Storage) :
  ∃ r, handle rq st = (Ok r, st).
Proof.
  destruct rq as [|body|body|sid]; cbn [handle];
    eexists; eapply bind_ret_run; reflexivity.
Qed.

Lemma handle_frame (rq : Request) (st : Storage) : (handle rq st).2 = st.
Proof. destruct (handle_total rq st) as [r ->]. reflexivity. Qed.

(** The answer of a route does not depend on the storage it runs in. *)
Lemma handle_blind (rq : Request) (st1 st2 : Storage) :
  (handle rq st1).1 = (handle rq st2).1.
Proof. destruct rq; reflexivity. Qed.

(** A whole run of the server leaves the storage as it found it. *)
Lemma serve_frame (rqs : list Request) (st : Storage) : (serve rqs st).2 = st.
Proof.
  revert st. induction rqs as [|rq rqs IH]; intros st; cbn [serve].
  - reflexivity.
  - destruct (handle_total rq st) as [r ->].
    specialize (IH st). destruct (serve rqs st) as [os st'']. exact IH.
Qed.

(** Two runs over the same requests give the same answers, whatever
    storage each starts from. *)
Lemma serve_blind (rqs : list Request) (st1 st2 : Storage) :
  (serve rqs st1).1 = (serve rqs st2).1.
Proof.
  revert st1 st2. induction rqs as [|rq rqs IH]; intros st1 st2; cbn [serve].
  - reflexivity.
  - pose proof (handle_blind rq st1 st2) as Hrq.
    destruct (handle rq st1) as [o1 st1'], (handle rq st2) as [o2 st2'].
    specialize (IH st1' st2').
    destruct (serve rqs st1') as [os1 st1''], (serve rqs st2') as [os2 st2''].
    cbn in *. congruence.
Qed.

(** From a fresh start no story is ever stored. *)
Lemma serve_creates_no_story (rqs : list Request) (sid : string) :
  (serve rqs initial_storage).2 !! sid = None.
Proof. rewrite serve_frame. apply lookup_empty. Qed.

(** ** generate_scene *)

(** The body of [generate_scene], as a function of the request alone. *)
Lemma generate_scene_run (request : GenerateSceneRequest.t) (st : Storage) :
  generate_scene request st =
    (Ok (NarrativeResponse.Build
           "Scene generation endpoint - implementation pending"
           {[ "story_id" := JStr (GenerateSceneRequest.story_id request);
              "model" := JStr "gpt-4-turbo-preview";
              "tokens_used" := JInt 0 ]}),
     st).
Proof. reflexivity. Qed.

(** C8.  For every request, an empty [story_id] included,
    [generate_scene] raises nothing and returns the constant text
    "Scene generation endpoint - implementation pending" with metadata
    exactly [{story_id: request.story_id, model: "gpt-4-turbo-preview",
    tokens_used: 0}]. *)
Theorem generate_scene_stub :
  ∀ (request : GenerateSceneRequest.t) (st : Storage),
    generate_scene request st =
      (Ok (NarrativeResponse.Build
             "Scene generation endpoint - implementation pending"
             {[ "story_id" := JStr (GenerateSceneRequest.story_id request);
                "model" := JStr "gpt-4-turbo-preview";
                "tokens_used" := JInt 0 ]}),
       st)
    ∧ generate_scene empty_id_scene_request st =
        (Ok (NarrativeResponse.Build
               "Scene generation endpoint - implementation pending"
               {[ "story_id" := JStr "";
                  "model" := JStr "gpt-4-turbo-preview";
                  "tokens_used" := JInt 0 ]}),
         st).
Proof. intros request st. split; apply generate_scene_run. Qed.

(** C1, as stated, fails: on the request with the empty [story_id] the
    handler returns a successful result, not [InvalidInput]. *)
Lemma generate_scene_empty_id_not_rejected :
  GenerateSceneRequest.story_id empty_id_scene_request = ""
  ∧ (∃ r, generate_scene empty_id_scene_request initial_storage
            = (Ok r, initial_storage))
  ∧ (generate_scene empty_id_scene_request initial_storage).1 ≠ Err InvalidInput.
Proof.
  split; [reflexivity|]. split.
  - eexists. apply generate_scene_run.
  - rewrite generate_scene_run. discriminate.
Qed.

(** C1, amended.  A call of [generate_scene] whose [story_id] is the
    empty string writes nothing to the storage and returns a successful
    result: the stub text, with the empty [story_id] in its metadata. *)
Theorem generate_scene_empty_id_succeeds_without_write :
  ∀ (request : GenerateSceneRequest.t) (st : Storage),
    GenerateSceneRequest.story_id request = "" →
    ∃ r, generate_scene request st = (Ok r, st)
         ∧ NarrativeResponse.text r
             = "Scene generation endpoint - implementation pending"
         ∧ NarrativeResponse.metadata r !! "story_id" = Some (JStr "").
Proof.
  intros request st Hid. eexists. split; [apply generate_scene_run|].
  cbn [NarrativeResponse.text NarrativeResponse.metadata]. rewrite Hid.
  split; reflexivity.
Qed.

Lemma generate_scene_empty_id_succeeds_without_write_witness :
  ∃ r, generate_scene empty_id_scene_request initial_storage
         = (Ok r, initial_storage)
       ∧ NarrativeResponse.text r
           = "Scene generation endpoint - implementation pending"
       ∧ NarrativeResponse.metadata r !! "story_id" = Some (JStr "").
Proof.
  apply (generate_scene_empty_id_succeeds_without_write
           empty_id_scene_request initial_storage).
  reflexivity.
Defined.

(** C6.  Every successful result of [generate_scene] has a non-empty
    text, and its metadata holds the model identifier, a token-usage
    count and the [story_id] of the request. *)
Theorem generate_scene_result_contract :
  ∀ (request : GenerateSceneRequest.t) (st st' : Storage)
    (r : NarrativeResponse.t),
    generate_scene request st = (Ok r, st') →
    NarrativeResponse.text r ≠ ""
    ∧ NarrativeResponse.metadata r !! "model" = Some (JStr "gpt-4-turbo-preview")
    ∧ (∃ n : Z, NarrativeResponse.metadata r !! "tokens_used" = Some (JInt n))
    ∧ NarrativeResponse.metadata r !! "story_id"
        = Some (JStr (GenerateSceneRequest.story_id request)).
Proof.
  intros request st st' r Hrun. rewrite generate_scene_run in Hrun.
  injection Hrun as <- _. cbn [NarrativeResponse.text NarrativeResponse.metadata].
  repeat split; [discriminate | now exists 0%Z].
Qed.

Lemma generate_scene_result_contract_witness :
  let r := NarrativeResponse.Build
             "Scene generation endpoint - implementation pending"
             {[ "story_id" := JStr "story-1";
                "model" := JStr "gpt-4-turbo-preview";
                "tokens_used" := JInt 0 ]} in
  NarrativeResponse.text r ≠ ""
  ∧ NarrativeResponse.metadata r !! "model" = Some (JStr "gpt-4-turbo-preview")
  ∧ (∃ n : Z, NarrativeResponse.metadata r !! "tokens_used" = Some (JInt n))
  ∧ NarrativeResponse.metadata r !! "story_id" = Some (JStr "story-1").
Proof.
  apply (generate_scene_result_contract
           first_scene_request initial_storage initial_storage).
  reflexivity.
Defined.

(** ** get_story_state *)

Lemma get_story_state_run (story_id : string) (st : Storage) :
  get_story_state story_id st =
    (Ok {[ "story_id" := JStr story_id;
           "state" := JDict ∅;
           "message" := JStr "Story state endpoint - implementation pending" ]},
     st).
Proof. reflexivity. Qed.

(** C9.  For every [story_id], [get_story_state] raises nothing, returns
    that [story_id] with the empty mapping as [state], and leaves the
    storage alone; no route writes the storage, no route's answer
    depends on it, and no run of the server ever stores a story. *)
Theorem get_story_state_stub :
  ∀ (story_id : string) (st : Storage),
    (∃ d : Dict,
        get_story_state story_id st = (Ok d, st)
        ∧ d !! "story_id" = Some (JStr story_id)
        ∧ d !! "state" = Some (JDict ∅))
    ∧ (∀ rq : Request, (handle rq st).2 = st)
    ∧ (∀ (rq : Request) (st' : Storage), (handle rq st).1 = (handle rq st').1)
    ∧ (∀ (rqs : list Request) (sid : string),
          (serve rqs initial_storage).2 !! sid = None).
Proof.
  intros story_id st. split; [|split; [|split]].
  - eexists. split; [apply get_story_state_run|]. split; reflexivity.
  - intros rq. apply handle_frame.
  - intros rq st'. apply handle_blind.
  - apply serve_creates_no_story.
Qed.

(** C2, as stated, fails: for an identifier no story was ever created
    under, the handler returns a state, not [NotFound]. *)
Lemma get_story_state_unknown_not_NotFound :
  initial_storage !! "never-created" = None
  ∧ (∃ d : Dict,
        get_story_state "never-created" initial_storage = (Ok d, initial_storage)
        ∧ d !! "state" = Some (JDict ∅))
  ∧ (get_story_state "never-created" initial_storage).1 ≠ Err NotFound.
Proof.
  split; [reflexivity|]. split.
  - eexists. split; [apply get_story_state_run | reflexivity].
  - rewrite get_story_state_run. discriminate.
Qed.

(** C2, amended.  For every [story_id] no story was created under,
    [get_story_state] is pure (the storage is left as it was) and
    succeeds, returning that [story_id] with the empty state mapping. *)
Theorem get_story_state_unknown_returns_empty_state :
  ∀ (story_id : string) (st : Storage),
    st !! story_id = None →
    ∃ d : Dict,
      get_story_state story_id st = (Ok d, st)
      ∧ d !! "story_id" = Some (JStr story_id)
      ∧ d !! "state" = Some (JDict ∅).
Proof.
  intros story_id st _. eexists.
  split; [apply get_story_state_run|]. split; reflexivity.
Qed.

Lemma get_story_state_unknown_returns_empty_state_witness :
  ∃ d : Dict,
    get_story_state "never-created" initial_storage = (Ok d, initial_storage)
    ∧ d !! "story_id" = Some (JStr "never-created")
    ∧ d !! "state" = Some (JDict ∅).
Proof.
  apply (get_story_state_unknown_returns_empty_state
           "never-created" initial_storage).
  reflexivity.
Defined.

(** C3, as stated, fails: after a successful [generate_scene] for
    "story-1" on a fresh server nothing is stored under "story-1". *)
Lemma generate_scene_persists_nothing :
  GenerateSceneRequest.story_id first_scene_request = "story-1"
  ∧ (∃ r, (generate_scene first_scene_request initial_storage).1 = Ok r)
  ∧ (generate_scene first_scene_request initial_storage).2 !! "story-1" = None.
Proof.
  split; [reflexivity|]. rewrite generate_scene_run. split.
  - eexists. reflexivity.
  - reflexivity.
Qed.

(** C3, amended.  For every non-empty [story_id], [generate_scene]
    succeeds, changes no state and stores nothing, and a
    [get_story_state] for the same [story_id] right after it answers
    exactly as it would have without the call: with the empty state
    mapping. *)
Theorem generate_scene_then_get_story_state :
  ∀ (request : GenerateSceneRequest.t) (st : Storage),
    GenerateSceneRequest.story_id request ≠ "" →
    (∃ r, generate_scene request st = (Ok r, st))
    ∧ (_ ← generate_scene request ;
       get_story_state (GenerateSceneRequest.story_id request)) st
      = get_story_state (GenerateSceneRequest.story_id request) st
    ∧ ∃ d : Dict,
        get_story_state (GenerateSceneRequest.story_id request) st = (Ok d, st)
        ∧ d !! "state" = Some (JDict ∅).
Proof.
  intros request st _. split; [|split].
  - eexists. apply generate_scene_run.
  - unfold mbind, App_bind. now rewrite generate_scene_run.
  - eexists. split; [apply get_story_state_run | reflexivity].
Qed.

Lemma generate_scene_then_get_story_state_witness :
  (∃ r, generate_scene first_scene_request initial_storage
          = (Ok r, initial_storage))
  ∧ (_ ← generate_scene first_scene_request ; get_story_state "story-1")
      initial_storage
    = get_story_state "story-1" initial_storage
  ∧ ∃ d : Dict,
      get_story_state "story-1" initial_storage = (Ok d, initial_storage)
      ∧ d !! "state" = Some (JDict ∅).
Proof.
  apply (generate_scene_then_get_story_state first_scene_request initial_storage).
  discriminate.
Defined.

(** ** generate_choices *)

Lemma generate_choices_run (request : GenerateChoicesRequest.t) (st : Storage) :
  generate_choices request st =
    (Ok {[ "choices" := JList stub_choices;
           "metadata" :=
             JDict {[ "story_id" :=
                        JStr (GenerateChoicesRequest.story_id request) ]} ]},
     st).
Proof. reflexivity. Qed.

Lemma generate_choices_inv (request : GenerateChoicesRequest.t)
    (st st' : Storage) (d : Dict) :
  generate_choices request st = (Ok d, st') →
  d !! "choices" = Some (JList stub_choices) ∧ st' = st.
Proof.
  rewrite generate_choices_run. intros Hrun.
  injection Hrun as <- <-. split; reflexivity.
Qed.

(** Every entry of the list on offer is a choice: a non-empty
    identifier and a non-empty text. *)
Lemma stub_choices_well_formed :
  ∃ (c : JValue) (cs : list JValue) (ids texts : list string),
    stub_choices = c :: cs
    ∧ length (c :: cs) = 3
    ∧ mapM choice_id (c :: cs) = Some ids
    ∧ mapM choice_text (c :: cs) = Some texts
    ∧ Forall (λ s, s ≠ "") ids
    ∧ Forall (λ s, s ≠ "") texts.
Proof.
  unfold stub_choices. do 2 eexists.
  exists ["choice_1"; "choice_2"; "choice_3"],
         ["Choice 1 - implementation pending";
          "Choice 2 - implementation pending";
          "Choice 3 - implementation pending"].
  split; [reflexivity|]. split; [reflexivity|].
  split; [reflexivity|]. split; [reflexivity|].
  split; repeat constructor; discriminate.
Qed.

(** C4.  Every call of [generate_choices] succeeds, and its answer is
    the object with the three choices on offer, each with a non-empty
    identifier and a non-empty text: no success carries an empty list
    of choices, nor a list whose entries are no choices.  The handler
    never generates a zero-choice set and has no terminal state to
    stand for: every outcome is such a success, and none is a failure,
    [GenerationFailure] included. *)
Theorem generate_choices_nonempty :
  ∀ (request : GenerateChoicesRequest.t) (st : Storage),
    generate_choices request st =
      (Ok {[ "choices" := JList stub_choices;
             "metadata" :=
               JDict {[ "story_id" :=
                          JStr (GenerateChoicesRequest.story_id request) ]} ]},
       st)
    ∧ (∀ (o : Outcome Dict) (st' : Storage),
          generate_choices request st = (o, st') →
          ∃ (d : Dict) (c : JValue) (cs : list JValue)
            (ids texts : list string),
            o = Ok d
            ∧ dom d = {[ "choices"; "metadata" ]}
            ∧ d !! "choices" = Some (JList (c :: cs))
            ∧ length (c :: cs) = 3
            ∧ mapM choice_id (c :: cs) = Some ids
            ∧ mapM choice_text (c :: cs) = Some texts
            ∧ Forall (λ s, s ≠ "") ids
            ∧ Forall (λ s, s ≠ "") texts)
    ∧ (∀ (e : Failure) (st' : Storage),
          generate_choices request st ≠ (Err e, st')).
Proof.
  intros request st. split; [apply generate_choices_run|]. split.
  - intros o st' Hrun. rewrite generate_choices_run in Hrun.
    injection Hrun as <- _.
    destruct stub_choices_well_formed
      as (c & cs & ids & texts & Hcs & Hlen & Hids & Htexts & Hid & Htext).
    eexists _, c, cs, ids, texts. split; [reflexivity|].
    split; [rewrite dom_insert_L, dom_singleton_L; reflexivity|].
    split; [rewrite <- Hcs; reflexivity|]. auto.
  - intros e st'. rewrite generate_choices_run. discriminate.
Qed.

(** C5.  In every successful answer of [generate_choices] each choice
    has an identifier, and the identifiers are pairwise distinct. *)
Theorem generate_choices_ids_distinct :
  ∀ (request : GenerateChoicesRequest.t) (st st' : Storage) (d : Dict),
    generate_choices request st = (Ok d, st') →
    ∃ (cs : list JValue) (ids : list string),
      d !! "choices" = Some (JList cs)
      ∧ mapM choice_id cs = Some ids
      ∧ NoDup ids
      ∧ ∀ (i j : nat) (ci cj : JValue),
          cs !! i = Some ci → cs !! j = Some cj → i ≠ j →
          choice_id ci ≠ choice_id cj.
Proof.
  intros request st st' d Hrun.
  apply generate_choices_inv in Hrun as [Hd _].
  exists stub_choices, ["choice_1"; "choice_2"; "choice_3"].
  split; [exact Hd|]. split; [reflexivity|]. split.
  - apply (bool_decide_unpack _). vm_compute. reflexivity.
  - intros i j ci cj Hi Hj Hij.
    destruct i as [|[|[|i]]]; destruct j as [|[|[|j]]];
      cbn in Hi, Hj; try discriminate; try congruence;
      injection Hi as <-; injection Hj as <-; discriminate.
Qed.

Lemma generate_choices_ids_distinct_witness :
  ∃ (cs : list JValue) (ids : list string),
    ({[ "choices" := JList stub_choices;
        "metadata" := JDict {[ "story_id" := JStr "story-1" ]} ]} : Dict)
      !! "choices" = Some (JList cs)
    ∧ mapM choice_id cs = Some ids
    ∧ NoDup ids
    ∧ ∀ (i j : nat) (ci cj : JValue),
        cs !! i = Some ci → cs !! j = Some cj → i ≠ j →
        choice_id ci ≠ choice_id cj.
Proof.
  apply (generate_choices_ids_distinct
           first_choices_request initial_storage initial_storage).
  reflexivity.
Defined.

(** ** health_check *)

Lemma health_check_run (st : Storage) :
  health_check st =
    (Ok {[ "status" := JStr "healthy"; "service" := JStr "narrative-ai" ]}, st).
Proof. reflexivity. Qed.

(** C7.  In every state of the storage, and after any sequence of
    earlier requests, [GET /health] returns exactly the object
    [{status: "healthy", service: "narrative-ai"}]: these two keys and
    no other. *)
Theorem health_check_exact :
  ∀ (earlier : list Request) (st : Storage),
    health_check st =
      (Ok {[ "status" := JStr "healthy"; "service" := JStr "narrative-ai" ]}, st)
    ∧ (handle GetHealth (serve earlier st).2).1 =
        Ok (Json {[ "status" := JStr "healthy";
                    "service" := JStr "narrative-ai" ]})
    ∧ ∃ d : Dict,
        (health_check st).1 = Ok d
        ∧ d !! "status" = Some (JStr "healthy")
        ∧ d !! "service" = Some (JStr "narrative-ai")
        ∧ dom d = {[ "status"; "service" ]}.
Proof.
  intros earlier st. split; [apply health_check_run|]. split.
  - rewrite serve_frame. reflexivity.
  - eexists. rewrite health_check_run. split; [reflexivity|].
    split; [reflexivity|]. split; [reflexivity|].
    rewrite dom_insert_L, dom_singleton_L. reflexivity.
Qed.

(** ** Determinism *)

Lemma ret_storage_blind {A} (a : A) : storage_blind (ret a).
Proof. intros st1 st2. reflexivity. Qed.

(** C10.  Every handler is a function of its request alone: whatever
    was served before, from whatever storage, equal requests get equal
    responses. *)
Theorem handlers_deterministic :
  ∀ (earlier1 earlier2 : list Request) (st1 st2 : Storage),
    let now1 := (serve earlier1 st1).2 in
    let now2 := (serve earlier2 st2).2 in
    (health_check now1).1 = (health_check now2).1
    ∧ (∀ request, (generate_scene request now1).1 = (generate_scene request now2).1)
    ∧ (∀ request, (generate_choices request now1).1 = (generate_choices request now2).1)
    ∧ (∀ story_id, (get_story_state story_id now1).1 = (get_story_state story_id now2).1)
    ∧ (∀ rq, (handle rq now1).1 = (handle rq now2).1)
    ∧ (∀ rqs, (serve rqs now1).1 = (serve rqs now2).1).
Proof.
  intros earlier1 earlier2 st1 st2 now1 now2.
  split; [apply ret_storage_blind|].
  split; [intros request; apply ret_storage_blind|].
  split; [intros request; apply ret_storage_blind|].
  split; [intros story_id; apply ret_storage_blind|].
  split; [intros rq; apply handle_blind|].
  intros rqs. apply serve_blind.
Qed.

(** * Further properties of the handlers *)

(** ** What a response depends on *)

(** The [story_id] echoed in the metadata of a scene outcome. *)
Lemma generate_scene_echo (request : GenerateSceneRequest.t) (st : Storage) :
  match (generate_scene request st).1 with
  | Ok r => NarrativeResponse.metadata r !! "story_id"
  | Err _ => None
  end = Some (JStr (GenerateSceneRequest.story_id request)).
Proof. reflexivity. Qed.

(** X1.  Two scene requests are answered alike exactly when they name
    the same story: [user_context] and [previous_choice] never reach
    the answer, and the echoed [story_id] tells stories apart. *)
Theorem generate_scene_depends_on_story_id_only :
  ∀ (r1 r2 : GenerateSceneRequest.t) (st : Storage),
    generate_scene r1 st = generate_scene r2 st
    ↔ GenerateSceneRequest.story_id r1 = GenerateSceneRequest.story_id r2.
Proof.
  intros r1 r2 st. split.
  - intros Heq.
    pose proof (generate_scene_echo r1 st) as H1.
    pose proof (generate_scene_echo r2 st) as H2.
    rewrite Heq, H2 in H1. congruence.
  - intros Hid. rewrite !generate_scene_run, Hid. reflexivity.
Qed.

(** The [story_id] echoed in the metadata of a choices outcome. *)
Lemma generate_choices_echo (request : GenerateChoicesRequest.t) (st : Storage) :
  match (generate_choices request st).1 with
  | Ok d => match d !! "metadata" with
            | Some (JDict m) => m !! "story_id"
            | _ => None
            end
  | Err _ => None
  end = Some (JStr (GenerateChoicesRequest.story_id request)).
Proof. reflexivity. Qed.

(** X2.  Two choices requests are answered alike exactly when they name
    the same story: [current_scene] and [user_context] never reach the
    answer. *)
Theorem generate_choices_depends_on_story_id_only :
  ∀ (r1 r2 : GenerateChoicesRequest.t) (st : Storage),
    generate_choices r1 st = generate_choices r2 st
    ↔ GenerateChoicesRequest.story_id r1 = GenerateChoicesRequest.story_id r2.
Proof.
  intros r1 r2 st. split.
  - intros Heq.
    pose proof (generate_choices_echo r1 st) as H1.
    pose proof (generate_choices_echo r2 st) as H2.
    rewrite Heq, H2 in H1. congruence.
  - intros Hid. rewrite !generate_choices_run, Hid. reflexivity.
Qed.

(** X3.  The choices on offer are the same for every story, scene and
    context: any two successful answers of [generate_choices] carry the
    same list under ["choices"]. *)
Theorem generate_choices_same_choices :
  ∀ (r1 r2 : GenerateChoicesRequest.t) (st1 st1' st2 st2' : Storage)
    (d1 d2 : Dict),
    generate_choices r1 st1 = (Ok d1, st1') →
    generate_choices r2 st2 = (Ok d2, st2') →
    d1 !! "choices" = d2 !! "choices".
Proof.
  intros r1 r2 st1 st1' st2 st2' d1 d2 H1 H2.
  apply generate_choices_inv in H1 as [-> _].
  apply generate_choices_inv in H2 as [-> _]. reflexivity.
Qed.

Lemma generate_choices_same_choices_witness :
  ({[ "choices" := JList stub_choices;
      "metadata" := JDict {[ "story_id" := JStr "story-1" ]} ]} : Dict)
    !! "choices"
  = ({[ "choices" := JList stub_choices;
        "metadata" := JDict {[ "story_id" := JStr "story-2" ]} ]} : Dict)
      !! "choices".
Proof.
  apply (generate_choices_same_choices
           first_choices_request
           (GenerateChoicesRequest.Build "story-2" "scene-9"
              (dict_literal [("mood", JStr "wary")]))
           initial_storage initial_storage
           {[ "story-2" := ∅ ]} {[ "story-2" := ∅ ]});
    reflexivity.
Defined.

(** The [story_id] echoed by a story lookup. *)
Lemma get_story_state_echo (story_id : string) (st : Storage) :
  match (get_story_state story_id st).1 with
  | Ok d => d !! "story_id"
  | Err _ => None
  end = Some (JStr story_id).
Proof. reflexivity. Qed.

(** X4.  Two story lookups are answered alike exactly when they ask for
    the same story: the answer tells stories apart by the echoed
    identifier alone. *)
Theorem get_story_state_injective :
  ∀ (s1 s2 : string) (st : Storage),
    get_story_state s1 st = get_story_state s2 st ↔ s1 = s2.
Proof.
  intros s1 s2 st. split.
  - intros Heq.
    pose proof (get_story_state_echo s1 st) as H1.
    pose proof (get_story_state_echo s2 st) as H2.
    rewrite Heq, H2 in H1. congruence.
  - intros ->. reflexivity.
Qed.

(** X5.  The three story routes agree on the identifier they echo: for
    a [story_id] that the lookup route can bind (not empty, no slash),
    the scene metadata, the choices metadata and the story lookup all
    carry that same string. *)
Theorem story_id_echoed_by_all_routes :
  ∀ (story_id current_scene : string) (ctx1 ctx2 : Dict)
    (previous_choice : option string) (st : Storage),
    path_parameter story_id = true →
    ∃ (lookup : Request) (scene : NarrativeResponse.t)
      (choices story meta : Dict),
      route_story story_id = Some lookup
      ∧ handle (PostGenerateScene
                  (GenerateSceneRequest.Build story_id ctx1 previous_choice)) st
          = (Ok (Narrative scene), st)
      ∧ handle (PostGenerateChoices
                  (GenerateChoicesRequest.Build story_id current_scene ctx2)) st
          = (Ok (Json choices), st)
      ∧ handle lookup st = (Ok (Json story), st)
      ∧ choices !! "metadata" = Some (JDict meta)
      ∧ NarrativeResponse.metadata scene !! "story_id" = Some (JStr story_id)
      ∧ meta !! "story_id" = Some (JStr story_id)
      ∧ story !! "story_id" = Some (JStr story_id).
Proof.
  intros story_id current_scene ctx1 ctx2 previous_choice st Hbound.
  exists (GetStory story_id). do 4 eexists.
  split; [unfold route_story; now rewrite Hbound|].
  split; [eapply bind_ret_run; apply generate_scene_run|].
  split; [eapply bind_ret_run; apply generate_choices_run|].
  split; [eapply bind_ret_run; apply get_story_state_run|].
  split; [reflexivity|]. repeat split.
Qed.

Lemma story_id_echoed_by_all_routes_witness :
  ∃ (lookup : Request) (scene : NarrativeResponse.t)
    (choices story meta : Dict),
    route_story "story-1" = Some lookup
    ∧ handle (PostGenerateScene
                (GenerateSceneRequest.Build "story-1" ∅ (Some "choice_2")))
        initial_storage
        = (Ok (Narrative scene), initial_storage)
    ∧ handle (PostGenerateChoices
                (GenerateChoicesRequest.Build "story-1" "scene-1" ∅))
        initial_storage
        = (Ok (Json choices), initial_storage)
    ∧ handle lookup initial_storage = (Ok (Json story), initial_storage)
    ∧ choices !! "metadata" = Some (JDict meta)
    ∧ NarrativeResponse.metadata scene !! "story_id" = Some (JStr "story-1")
    ∧ meta !! "story_id" = Some (JStr "story-1")
    ∧ story !! "story_id" = Some (JStr "story-1").
Proof.
  apply (story_id_echoed_by_all_routes
           "story-1" "scene-1" ∅ ∅ (Some "choice_2") initial_storage).
  reflexivity.
Defined.

(** The lookup route binds neither the empty string nor an identifier
    with a slash, though the two [POST] routes take both in a body. *)
Lemma route_story_unbound :
  route_story "" = None ∧ route_story "saga/part-2" = None.
Proof. split; reflexivity. Qed.

(** ** Runs of the server *)

(** X6.  The server is stateless: a run answers each request as a
    freshly started server would answer it alone and hands the storage
    back unchanged; so the answers to a run in two parts are the answers
    to each part, served from the same storage. *)
Theorem serve_answers_each_alone :
  ∀ (rqs rqs' : list Request) (st : Storage),
    serve rqs st = ((λ rq, (handle rq initial_storage).1) <$> rqs, st)
    ∧ (serve (rqs ++ rqs')%list st).1
      = ((serve rqs st).1 ++ (serve rqs' st).1)%list.
Proof.
  assert (Hmap : ∀ (rqs : list Request) (st : Storage),
             serve rqs st = ((λ rq, (handle rq initial_storage).1) <$> rqs, st)).
  { induction rqs as [|rq rqs IH]; intros st; cbn [serve fmap list_fmap].
    - reflexivity.
    - rewrite <- (handle_blind rq st initial_storage).
      destruct (handle_total rq st) as [r ->]. now rewrite IH. }
  intros rqs rqs' st. split; [apply Hmap|].
  rewrite !Hmap. cbn [fst]. apply fmap_app.
Qed.

(** * Request bodies *)

Section RequestBodies.
Context `{Validators}.

Lemma required_insert_ne {A} (validate : JValue -> option A) (body : Dict)
    (name k : string) (v : JValue) :
  k ≠ name → required validate (<[k:=v]> body) name = required validate body name.
Proof. intros Hne. unfold required. now rewrite lookup_insert_ne. Qed.

Lemma optional_str_insert_ne (body : Dict) (name k : string) (v : JValue) :
  k ≠ name → optional_str (<[k:=v]> body) name = optional_str body name.
Proof. intros Hne. unfold optional_str. now rewrite lookup_insert_ne. Qed.

Lemma parse_scene_request_inv (body : Dict) (r : GenerateSceneRequest.t) :
  parse_scene_request body = Some r →
  required validate_str body "story_id" = Some (GenerateSceneRequest.story_id r)
  ∧ required validate_dict body "user_context"
      = Some (GenerateSceneRequest.user_context r)
  ∧ optional_str body "previous_choice"
      = Some (GenerateSceneRequest.previous_choice r).
Proof.
  unfold parse_scene_request. intros Hparse.
  destruct (required validate_str body "story_id") as [sid|]; [|discriminate].
  destruct (required validate_dict body "user_context") as [ctx|]; [|discriminate].
  destruct (optional_str body "previous_choice") as [pc|]; [|discriminate].
  cbn in Hparse. injection Hparse as <-. auto.
Qed.

Lemma parse_choices_request_inv (body : Dict) (r : GenerateChoicesRequest.t) :
  parse_choices_request body = Some r →
  required validate_str body "story_id" = Some (GenerateChoicesRequest.story_id r)
  ∧ required validate_str body "current_scene"
      = Some (GenerateChoicesRequest.current_scene r)
  ∧ required validate_dict body "user_context"
      = Some (GenerateChoicesRequest.user_context r).
Proof.
  unfold parse_choices_request. intros Hparse.
  destruct (required validate_str body "story_id") as [sid|]; [|discriminate].
  destruct (required validate_str body "current_scene") as [sc|]; [|discriminate].
  destruct (required validate_dict body "user_context") as [ctx|]; [|discriminate].
  cbn in Hparse. injection Hparse as <-. auto.
Qed.

(** X7.  Every scene request is the validation of its own JSON object:
    validation undoes serialisation, so each value of the model can
    arrive over HTTP and reaches the handler as it was sent. *)
Theorem parse_scene_request_roundtrip :
  ∀ r : GenerateSceneRequest.t,
    parse_scene_request (scene_request_body r) = Some r
    ∧ post_generate_scene (scene_request_body r) = Some (generate_scene r).
Proof.
  assert (Hparse : ∀ r, parse_scene_request (scene_request_body r) = Some r).
  { intros [sid ctx pc]. unfold parse_scene_request, required, optional_str.
    assert (scene_request_body (GenerateSceneRequest.Build sid ctx pc)
              !! "story_id" = Some (JStr sid)) as -> by reflexivity.
    assert (scene_request_body (GenerateSceneRequest.Build sid ctx pc)
              !! "user_context" = Some (JDict ctx)) as -> by reflexivity.
    assert (scene_request_body (GenerateSceneRequest.Build sid ctx pc)
              !! "previous_choice" = Some (json_optional_str pc)) as ->
      by reflexivity.
    cbn. rewrite validate_str_JStr, validate_dict_JDict. cbn.
    destruct pc as [c|]; cbn; [rewrite validate_str_JStr|]; reflexivity. }
  intros r. split; [apply Hparse|].
  unfold post_generate_scene. now rewrite Hparse.
Qed.

(** X8.  A body without ["story_id"], or without ["user_context"], is
    not a scene request: validation fails and the handler is not
    called. *)
Theorem parse_scene_request_missing_required :
  ∀ body : Dict,
    body !! "story_id" = None ∨ body !! "user_context" = None →
    parse_scene_request body = None ∧ post_generate_scene body = None.
Proof.
  intros body Hmissing.
  assert (Hparse : parse_scene_request body = None).
  { unfold parse_scene_request, required.
    destruct Hmissing as [-> | ->]; [reflexivity|].
    destruct (body !! "story_id" ≫= validate_str); reflexivity. }
  split; [exact Hparse|]. unfold post_generate_scene. now rewrite Hparse.
Qed.

(** X9.  [previous_choice] is optional, and leaving it out is the same
    as sending [null]: both bodies validate alike, to a request without
    a previous choice; and a body that validates still validates, to
    the same story and context, once the key is removed. *)
Theorem parse_scene_request_previous_choice_optional :
  ∀ body : Dict,
    parse_scene_request (delete "previous_choice" body)
      = parse_scene_request (<["previous_choice" := JNull]> body)
    ∧ (∀ r, parse_scene_request body = Some r →
            parse_scene_request (delete "previous_choice" body)
              = Some (GenerateSceneRequest.Build
                        (GenerateSceneRequest.story_id r)
                        (GenerateSceneRequest.user_context r) None)).
Proof.
  intros body.
  assert (Hdel : parse_scene_request (delete "previous_choice" body)
                 = (story_id ← required validate_str body "story_id" ;
                    user_context ← required validate_dict body "user_context" ;
                    Some (GenerateSceneRequest.Build story_id user_context None))).
  { unfold parse_scene_request, required, optional_str.
    rewrite lookup_delete_eq, !lookup_delete_ne by discriminate. reflexivity. }
  split.
  - rewrite Hdel. unfold parse_scene_request, required, optional_str.
    rewrite lookup_insert_eq, !lookup_insert_ne by discriminate. reflexivity.
  - intros r Hr. apply parse_scene_request_inv in Hr as (Hsid & Hctx & _).
    rewrite Hdel, Hsid. cbn. rewrite Hctx. reflexivity.
Qed.

(** X10.  Keys the model does not declare are ignored: adding one to a
    body changes nothing about its validation. *)
Theorem parse_scene_request_ignores_extra_keys :
  ∀ (body : Dict) (k : string) (v : JValue),
    k ∉ scene_request_fields →
    parse_scene_request (<[k:=v]> body) = parse_scene_request body.
Proof.
  intros body k v Hk. unfold scene_request_fields in Hk.
  unfold parse_scene_request.
  rewrite !required_insert_ne, optional_str_insert_ne by set_solver.
  reflexivity.
Qed.

(** X11.  Every choices request is the validation of its own JSON
    object, and reaches the handler as it was sent. *)
Theorem parse_choices_request_roundtrip :
  ∀ r : GenerateChoicesRequest.t,
    parse_choices_request (choices_request_body r) = Some r
    ∧ post_generate_choices (choices_request_body r) = Some (generate_choices r).
Proof.
  assert (Hparse : ∀ r, parse_choices_request (choices_request_body r) = Some r).
  { intros [sid sc ctx]. unfold parse_choices_request, required.
    assert (choices_request_body (GenerateChoicesRequest.Build sid sc ctx)
              !! "story_id" = Some (JStr sid)) as -> by reflexivity.
    assert (choices_request_body (GenerateChoicesRequest.Build sid sc ctx)
              !! "current_scene" = Some (JStr sc)) as -> by reflexivity.
    assert (choices_request_body (GenerateChoicesRequest.Build sid sc ctx)
              !! "user_context" = Some (JDict ctx)) as -> by reflexivity.
    cbn. rewrite !validate_str_JStr, validate_dict_JDict. reflexivity. }
  intros r. split; [apply Hparse|].
  unfold post_generate_choices. now rewrite Hparse.
Qed.

(** X12.  All three fields of a choices request are required: a body
    that lacks one of them fails validation and the handler is not
    called. *)
Theorem parse_choices_request_missing_required :
  ∀ (body : Dict) (name : string),
    name ∈ choices_request_fields →
    body !! name = None →
    parse_choices_request body = None ∧ post_generate_choices body = None.
Proof.
  intros body name Hname Hmissing.
  assert (Hparse : parse_choices_request body = None).
  { unfold parse_choices_request, required.
    unfold choices_request_fields in Hname.
    apply list_elem_of_In in Hname.
    destruct Hname as [<- | [<- | [<- | []]]]; rewrite Hmissing; cbn.
    - reflexivity.
    - destruct (body !! "story_id" ≫= validate_str); reflexivity.
    - destruct (body !! "story_id" ≫= validate_str); [cbn|reflexivity].
      destruct (body !! "current_scene" ≫= validate_str); reflexivity. }
  split; [exact Hparse|]. unfold post_generate_choices. now rewrite Hparse.
Qed.

(** X13.  From the raw body, the scene route reads the ["story_id"]
    only: two valid bodies with the same value under ["story_id"] get
    the same answer, whatever context and previous choice they carry. *)
Theorem post_generate_scene_reads_story_id_only :
  ∀ (body1 body2 : Dict) (r1 r2 : GenerateSceneRequest.t),
    parse_scene_request body1 = Some r1 →
    parse_scene_request body2 = Some r2 →
    body1 !! "story_id" = body2 !! "story_id" →
    post_generate_scene body1 = post_generate_scene body2.
Proof.
  intros body1 body2 r1 r2 H1 H2 Hsid.
  unfold post_generate_scene. rewrite H1, H2. cbn. f_equal.
  apply parse_scene_request_inv in H1 as (E1 & _).
  apply parse_scene_request_inv in H2 as (E2 & _).
  unfold required in E1, E2. rewrite Hsid, E2 in E1.
  injection E1 as E1. unfold generate_scene. now rewrite E1.
Qed.

(** X14.  From the raw body, the choices route reads the ["story_id"]
    only: two valid bodies with the same value under ["story_id"] get
    the same answer, whatever scene and context they carry. *)
Theorem post_generate_choices_reads_story_id_only :
  ∀ (body1 body2 : Dict) (r1 r2 : GenerateChoicesRequest.t),
    parse_choices_request body1 = Some r1 →
    parse_choices_request body2 = Some r2 →
    body1 !! "story_id" = body2 !! "story_id" →
    post_generate_choices body1 = post_generate_choices body2.
Proof.
  intros body1 body2 r1 r2 H1 H2 Hsid.
  unfold post_generate_choices. rewrite H1, H2. cbn. f_equal.
  apply parse_choices_request_inv in H1 as (E1 & _).
  apply parse_choices_request_inv in H2 as (E2 & _).
  unfold required in E1, E2. rewrite Hsid, E2 in E1.
  injection E1 as E1. unfold generate_choices. now rewrite E1.
Qed.

End RequestBodies.

(** ** The same, at the strict validators and on concrete bodies *)

Lemma parse_scene_request_missing_required_witness :
  parse_scene_request (H := strict_validators)
    {[ "user_context" := JDict ∅; "previous_choice" := JStr "choice_1" ]} = None
  ∧ post_generate_scene (H := strict_validators)
      {[ "user_context" := JDict ∅; "previous_choice" := JStr "choice_1" ]} = None.
Proof.
  apply (@parse_scene_request_missing_required strict_validators).
  left. reflexivity.
Defined.

Lemma parse_scene_request_ignores_extra_keys_witness :
  parse_scene_request (H := strict_validators)
    (<["debug" := JBool true]> (scene_request_body first_scene_request))
  = parse_scene_request (H := strict_validators)
      (scene_request_body first_scene_request).
Proof.
  apply (@parse_scene_request_ignores_extra_keys strict_validators).
  apply (bool_decide_unpack _). reflexivity.
Defined.

Lemma parse_choices_request_missing_required_witness :
  parse_choices_request (H := strict_validators)
    {[ "story_id" := JStr "story-1"; "user_context" := JDict ∅ ]} = None
  ∧ post_generate_choices (H := strict_validators)
      {[ "story_id" := JStr "story-1"; "user_context" := JDict ∅ ]} = None.
Proof.
  apply (@parse_choices_request_missing_required strict_validators
           _ "current_scene").
  - apply (bool_decide_unpack _). reflexivity.
  - reflexivity.
Defined.

Lemma post_generate_scene_reads_story_id_only_witness :
  post_generate_scene (H := strict_validators)
    (scene_request_body first_scene_request)
  = post_generate_scene (H := strict_validators)
      {[ "story_id" := JStr "story-1"; "user_context" := JDict ∅ ]}.
Proof.
  apply (@post_generate_scene_reads_story_id_only strict_validators
           _ _ first_scene_request
           (GenerateSceneRequest.Build "story-1" ∅ None));
    reflexivity.
Defined.

Lemma post_generate_choices_reads_story_id_only_witness :
  post_generate_choices (H := strict_validators)
    (choices_request_body first_choices_request)
  = post_generate_choices (H := strict_validators)
      {[ "story_id" := JStr "story-1";
         "current_scene" := JStr "scene-7";
         "user_context" := JDict {[ "mood" := JStr "wary" ]};
         "previous_choice" := JStr "choice_2" ]}.
Proof.
  apply (@post_generate_choices_reads_story_id_only strict_validators
           _ _ first_choices_request
           (GenerateChoicesRequest.Build "story-1" "scene-7"
              {[ "mood" := JStr "wary" ]}));
    reflexivity.
Defined.
